(** * Verification of the grpcweb gateway shim (gateway/gateway.go)

  The program is a thin HTTP front for a gRPC backend: a CORS middleware
  (handleCORS, preflightHandler), an HTTPS redirect middleware
  (redirectHTTP), a status-recording response writer
  (loggingResponseWriter) and the bootstrap code (newGateway, Run, main).

  The embedding is shallow.  Go strings are byte strings ([string], a list
  of [ascii] bytes), http.Header is a finite map from canonical keys to
  lists of values, a response writer is a record updated by explicit state
  passing, and an http.Handler is a state transformer over the writer and
  the state [Σ] its closure owns.  The pieces of the Go standard library
  the program calls (textproto, strings.Join, net/http's Header,
  ResponseWriter and Redirect) are modelled in the modules [textproto],
  [strings_] and [http] from their documented behaviour. *)

From Stdlib Require Import ZArith Ascii String List Bool.
From stdpp Require Import gmap strings list.

Local Open Scope string_scope.
Local Open Scope Z_scope.

(** ** Go strings *)

Module strings_.

(** strings.Join(elems, sep) *)
Fixpoint Join (elems : list string) (sep : string) : string :=
  match elems with
  | [] => ""
  | [e] => e
  | e :: rest => e +:+ sep +:+ Join rest sep
  end.

(** Every byte of [s] is below utf8.RuneSelf (0x80). *)
Definition isASCII (s : string) : bool :=
  forallb (fun c => (N_of_ascii c <? 128)%N) (list_ascii_of_string s).

End strings_.

(** ** net/textproto: canonical header keys *)

Module textproto.

Definition byte_in (lo hi : N) (c : ascii) : bool :=
  ((lo <=? N_of_ascii c) && (N_of_ascii c <=? hi))%N.

Definition isLower (c : ascii) : bool := byte_in 97 122 c.
Definition isUpper (c : ascii) : bool := byte_in 65 90 c.

(** validHeaderFieldByte: the RFC 7230 token bytes
    [! # $ % & ' * + - . ^ _ ` | ~], digits and letters. *)
Definition validHeaderFieldByte (c : ascii) : bool :=
  byte_in 48 57 c || isUpper c || isLower c
  || existsb (N.eqb (N_of_ascii c))
       [33; 35; 36; 37; 38; 39; 42; 43; 45; 46; 94; 95; 96; 124; 126]%N.

(** toLower = 'a' - 'A' *)
Definition toLower : N := 32.

(** The casing loop of canonicalMIMEHeaderKey: upper case for the first
    letter and for a letter after a dash, lower case elsewhere. *)
Fixpoint canonicalize (upper : bool) (a : list ascii) : list ascii :=
  match a with
  | [] => []
  | c :: rest =>
      let c' :=
        if upper && isLower c then ascii_of_N (N_of_ascii c - toLower)
        else if negb upper && isUpper c then ascii_of_N (N_of_ascii c + toLower)
        else c in
      c' :: canonicalize (N.eqb (N_of_ascii c') 45) rest
  end.

(** CanonicalMIMEHeaderKey(s): a key holding a byte that is not a token
    byte (a space included) is returned unchanged. *)
Definition CanonicalMIMEHeaderKey (s : string) : string :=
  let a := list_ascii_of_string s in
  if forallb validHeaderFieldByte a
  then string_of_list_ascii (canonicalize true a)
  else s.

End textproto.

(** ** net/http: headers, requests, response writers, Redirect *)

Module http.

(** http.Header is map[string][]string.  Its methods canonicalize the
    key they are given; Get returns the first value stored under the key
    and the empty string when there is none. *)
Abbreviation Header := (gmap string (list string)).

Definition Header_Get (h : Header) (key : string) : string :=
  match h !! textproto.CanonicalMIMEHeaderKey key with
  | Some (v :: _) => v
  | _ => ""
  end.

Definition Header_Set (h : Header) (key value : string) : Header :=
  <[textproto.CanonicalMIMEHeaderKey key := [value]]> h.

(** The fields of http.Request the program reads; [ReqHeader] is the
    field r.Header. *)
Record Request := mkRequest {
  Method : string;
  Host : string;
  RequestURI : string;
  ReqHeader : Header
}.

Definition MethodGet := "GET".
Definition MethodHead := "HEAD".
Definition MethodPost := "POST".
Definition MethodPut := "PUT".
Definition MethodPatch := "PATCH".
Definition MethodDelete := "DELETE".

Definition StatusOK : Z := 200.
Definition StatusMovedPermanently : Z := 301.

(** The http.ResponseWriter interface.  Header() hands out the writer's
    own map, so a store through it is a state change of the writer:
    [GetHeader] reads that map and [PutHeader] replaces it. *)
Class ResponseWriter (W : Type) := {
  GetHeader : W -> Header;
  PutHeader : Header -> W -> W;
  Write : string -> W -> W;
  WriteHeader : Z -> W -> W
}.

(** w.Header().Set(key, value) *)
Definition SetHeader {W} `{ResponseWriter W} (key value : string) (w : W) : W :=
  PutHeader (Header_Set (GetHeader w) key value) w.

(** An http.Handler: ServeHTTP(w, r) run on the writer [w] and on the
    state [Σ] the handler's closure and its backends own. *)
Definition Handler (W Σ : Type) : Type := W -> Request -> Σ -> W * Σ.

(** The server's own writer (http.response): the header map the handler
    edits, whether the status line went out, the status, the headers as
    they were frozen by the first WriteHeader, and the body written. *)
Record response := mkResponse {
  handlerHeader : Header;
  wroteHeader : bool;
  status : Z;
  sentHeader : Header;
  written : string
}.

(** response.WriteHeader: only the first call counts; it fixes the
    status and freezes the header map (later edits of the map are not
    sent).  The panic on a code outside 100..999 is not modelled. *)
Definition response_WriteHeader (code : Z) (w : response) : response :=
  if wroteHeader w then w
  else {| handlerHeader := handlerHeader w; wroteHeader := true;
          status := code; sentHeader := handlerHeader w;
          written := written w |}.

(** response.Write: an implicit WriteHeader(200) when none was made, then
    the bytes are appended (statuses and methods that allow no body are
    not modelled). *)
Definition response_Write (b : string) (w : response) : response :=
  let w := response_WriteHeader StatusOK w in
  {| handlerHeader := handlerHeader w; wroteHeader := wroteHeader w;
     status := status w; sentHeader := sentHeader w;
     written := written w +:+ b |}.

#[global] Instance response_ResponseWriter : ResponseWriter response := {
  GetHeader := handlerHeader;
  PutHeader := fun h w =>
    {| handlerHeader := h; wroteHeader := wroteHeader w; status := status w;
       sentHeader := sentHeader w; written := written w |};
  Write := response_Write;
  WriteHeader := response_WriteHeader
}.

(** The writer the server hands to the root handler of a new request. *)
Definition newResponse : response :=
  {| handlerHeader := ∅; wroteHeader := false; status := 0;
     sentHeader := ∅; written := "" |}.

(** response.finishRequest: a handler that returned without writing a
    status gets the implicit 200. *)
Definition finishRequest (w : response) : response :=
  if wroteHeader w then w else response_WriteHeader StatusOK w.

(** One request through the server: a fresh writer, the root handler,
    then finishRequest.  The result's [status] and [sentHeader] are what
    goes on the wire from the handler chain. *)
Definition serve {Σ} (h : Handler response Σ) (r : Request) (σ : Σ)
  : response * Σ :=
  let '(w, σ') := h newResponse r σ in (finishRequest w, σ').

Definition hexDigit (n : N) : ascii :=
  if (n <? 10)%N then ascii_of_N (48 + n) else ascii_of_N (87 + n).

(** hexEscapeNonASCII: every byte at or above utf8.RuneSelf becomes a
    percent sign and the byte in lower-case hexadecimal
    (strconv.AppendInt in base 16); other bytes are kept. *)
Fixpoint hexEscapeNonASCII (s : string) : string :=
  match s with
  | EmptyString => EmptyString
  | String c rest =>
      let n := N_of_ascii c in
      if (128 <=? n)%N
      then String "%" (String (hexDigit (n / 16)) (String (hexDigit (n mod 16))
             (hexEscapeNonASCII rest)))
      else String c (hexEscapeNonASCII rest)
  end.

Definition quote : string := String (ascii_of_N 34) EmptyString.

(** htmlEscape: the replacer for the bytes & < > double quote and
    single quote. *)
Fixpoint htmlEscape (s : string) : string :=
  match s with
  | EmptyString => EmptyString
  | String c rest =>
      (match N_of_ascii c with
       | 38%N => "&amp;"
       | 60%N => "&lt;"
       | 62%N => "&gt;"
       | 34%N => "&#34;"
       | 39%N => "&#39;"
       | _ => String c EmptyString
       end) +:+ htmlEscape rest
  end.

(** StatusText on the redirect codes. *)
Definition StatusText (code : Z) : string :=
  match code with
  | 300 => "Multiple Choices"
  | 301 => "Moved Permanently"
  | 302 => "Found"
  | 303 => "See Other"
  | 304 => "Not Modified"
  | 305 => "Use Proxy"
  | 307 => "Temporary Redirect"
  | 308 => "Permanent Redirect"
  | _ => ""
  end.

Definition newline : string := String (ascii_of_N 10) EmptyString.

(** http.Redirect(w, r, url, code) for a [url] that carries a scheme (the
    rewriting of a scheme-less relative url against the request path is
    not modelled; redirectHTTP always passes an https url).  Location is
    the url with its non-ASCII bytes hex-escaped; unless a Content-Type
    key was already in the map, GET and HEAD get a text/html
    Content-Type and GET gets a short HTML body after the status. *)
Definition Redirect {W} `{ResponseWriter W}
    (w : W) (r : Request) (url : string) (code : Z) : W :=
  let hadCT := bool_decide (is_Some (GetHeader w !! "Content-Type")) in
  let w := SetHeader "Location" (hexEscapeNonASCII url) w in
  let w :=
    if negb hadCT && (String.eqb (Method r) "GET" || String.eqb (Method r) "HEAD")
    then SetHeader "Content-Type" "text/html; charset=utf-8" w
    else w in
  let w := WriteHeader code w in
  if negb hadCT && String.eqb (Method r) "GET"
  then Write ("<a href=" +:+ quote +:+ htmlEscape url +:+ quote +:+ ">"
              +:+ StatusText code +:+ "</a>." +:+ newline +:+ newline) w
  else w.

End http.

Import http.

(** ** gateway.go: the middlewares *)

Definition bindAddress : string := ":8080".

(** headers is allowed CORS headers *)
Definition headers : list string := [
  "Accept";
  "Accept-Encoding";
  "Authorization";
  "Content-Type";
  "Origin";
  "User-Agent";
  "X-CSRF-Token";
  "X-CSRFToken";
  "X-Request-ID";
  "X-Requested-With"
].

(** methods are the HTTP methods allowed by CORS *)
Definition methods : list string := [
  MethodGet;
  MethodHead;
  MethodPost;
  MethodPut;
  MethodPatch;
  MethodDelete
].

(** preflightHandler sets headers values for CORS and then short-circuits
    the request *)
Definition preflightHandler {W} `{ResponseWriter W} (w : W) (r : Request) : W :=
  let w := SetHeader "Access-Control-Allow-Headers" (strings_.Join headers ",") w in
  let w := SetHeader "Access-Control-Allow-Methods" (strings_.Join methods ",") w in
  SetHeader "Access-Control-Max-Age" "3600" w.

(** The test of handleCORS's inner [if]. *)
Definition isPreflight (r : Request) : bool :=
  String.eqb (Method r) "OPTIONS"
  && negb (String.eqb (Header_Get (ReqHeader r) "Access-Control-Request-Method") "").

(** handleCORS allows Cross Origin Resource Sharing from any origin.  The
    preflight test sits inside the test on Origin; the preflight branch
    returns, every other path falls through to h.ServeHTTP(w, r). *)
Definition handleCORS {W Σ} `{ResponseWriter W} (h : Handler W Σ) : Handler W Σ :=
  fun w r σ =>
    let origin := Header_Get (ReqHeader r) "Origin" in
    if negb (String.eqb origin "") then
      let w := SetHeader "Access-Control-Allow-Origin" origin w in
      if isPreflight r then (preflightHandler w r, σ)
      else h w r σ
    else h w r σ.

(** redirectHTTP will redirect any requests with a value of 'http' in the
    header 'X-Forwarded-Proto' to HTTPS *)
Definition redirectHTTP {W Σ} `{ResponseWriter W} (h : Handler W Σ) : Handler W Σ :=
  fun w r σ =>
    if String.eqb (Header_Get (ReqHeader r) "X-Forwarded-Proto") "http" then
      let redirectTo := "https://" +:+ Host r +:+ RequestURI r in
      (Redirect w r redirectTo StatusMovedPermanently, σ)
    else h w r σ.

(** ** gateway.go: the status-recording writer *)

(** loggingResponseWriter records the status code of the response; the
    field [ResponseWriter_] is the embedded http.ResponseWriter. *)
Record loggingResponseWriter (W : Type) := mkLoggingResponseWriter {
  ResponseWriter_ : W;
  statusCode : Z
}.
Arguments mkLoggingResponseWriter {W}.
Arguments ResponseWriter_ {W}.
Arguments statusCode {W}.

Definition NewLoggingResponseWriter {W} (w : W) : loggingResponseWriter W :=
  mkLoggingResponseWriter w StatusOK.

(** func (lrw *loggingResponseWriter) WriteHeader(code int): the field is
    assigned first, then the call is passed on. *)
Definition lrw_WriteHeader {W} `{ResponseWriter W}
    (code : Z) (lrw : loggingResponseWriter W) : loggingResponseWriter W :=
  let lrw := mkLoggingResponseWriter (ResponseWriter_ lrw) code in
  mkLoggingResponseWriter (WriteHeader code (ResponseWriter_ lrw)) (statusCode lrw).

(** Header and Write are promoted from the embedded writer; only
    WriteHeader is lrw's own. *)
#[global] Instance loggingResponseWriter_ResponseWriter {W} `{ResponseWriter W}
  : ResponseWriter (loggingResponseWriter W) := {
  GetHeader := fun lrw => GetHeader (ResponseWriter_ lrw);
  PutHeader := fun h lrw =>
    mkLoggingResponseWriter (PutHeader h (ResponseWriter_ lrw)) (statusCode lrw);
  Write := fun b lrw =>
    mkLoggingResponseWriter (Write b (ResponseWriter_ lrw)) (statusCode lrw);
  WriteHeader := lrw_WriteHeader
}.

(** What a handler can do with the http.ResponseWriter it is given: edit
    the header map, write body bytes, write a status. *)
Inductive call : Type :=
| CallHeader (edit : Header -> Header)
| CallWrite (b : string)
| CallWriteHeader (code : Z).

Definition do_call {W} `{ResponseWriter W} (c : call) (w : W) : W :=
  match c with
  | CallHeader edit => PutHeader (edit (GetHeader w)) w
  | CallWrite b => Write b w
  | CallWriteHeader code => WriteHeader code w
  end.

(** The calls of a handler, in program order. *)
Definition do_calls {W} `{ResponseWriter W} (cs : list call) (w : W) : W :=
  fold_left (fun w c => do_call c w) cs w.

(** The code of the last [CallWriteHeader] of [cs], if there is one. *)
Fixpoint lastWriteHeader (cs : list call) : option Z :=
  match cs with
  | [] => None
  | c :: rest =>
      match lastWriteHeader rest with
      | Some code => Some code
      | None => match c with CallWriteHeader code => Some code | _ => None end
      end
  end.

(** ** gateway.go: construction and bootstrap *)

(** A call that hands control back, one that never does
    (http.ListenAndServe while it is serving), or one that panics. *)
Inductive completion (A : Type) : Type :=
| Returns (a : A)
| BlocksForever
| Panics.
Arguments Returns {A}.
Arguments BlocksForever {A}.
Arguments Panics {A}.

(** grpc.DialOption, as far as the program builds one. *)
Inductive DialOption : Type :=
| WithInsecure.

Section Bootstrap.

(** State owned by the handlers, and the non-nil values of Go's [error]
    (a Go error is an [option E], nil being [None]). *)
Context {Σ E : Type}.

(** The grpc-gateway runtime and the generated bindings, outside the
    repository: the multiplexer type with its constructor and its
    ServeHTTP, and the registration call, which edits the multiplexer and
    returns an error. *)
Context {ServeMuxOption runtimeServeMux : Type}.
Variable runtime_NewServeMux : list ServeMuxOption -> runtimeServeMux.
Variable runtime_ServeHTTP : runtimeServeMux -> Handler response Σ.
Variable RegisterThingsHandlerFromEndpoint :
  runtimeServeMux -> string -> list DialOption -> runtimeServeMux * option E.

(** net/http outside the middlewares: how a ServeMux with the given
    (pattern, handler) entries dispatches, and what ListenAndServe on an
    address comes to. *)
Variable ServeMux_ServeHTTP :
  list (string * Handler response Σ) -> Handler response Σ.
Variable ListenAndServe_result : string -> completion (option E).

(** The effects of the bootstrap code on the outside world. *)
Inductive Event : Type :=
| EvSetFlags (flags : Z)
| EvLog (line : string)
| EvRegister (endpoint : string) (dialOpts : list DialOption)
| EvListenAndServe (address : string) (handler : Handler response Σ)
| EvCancel
| EvFatal (err : E).

(** A computation with its trace of effects. *)
Definition IO (A : Type) : Type := A * list Event.

Definition ret {A} (a : A) : IO A := (a, []).

Definition bind {A B} (m : IO A) (f : A -> IO B) : IO B :=
  let '(a, t1) := m in
  let '(b, t2) := f a in
  (b, (t1 ++ t2)%list).

Definition emit (e : Event) : IO unit := (tt, [e]).

Notation "x <- m ;; k" := (bind m (fun x => k))
  (at level 100, m at next level, right associativity).
Notation "m ;;; k" := (bind m (fun _ => k))
  (at level 100, right associativity).

(** newGateway returns a new gateway server which translates HTTP into
    gRPC.  The result is Go's pair (http.Handler, error). *)
Definition newGateway (opts : list ServeMuxOption)
  : IO (option runtimeServeMux * option E) :=
  emit (EvLog ("starting gateway server on " +:+ bindAddress +:+ newline)) ;;;
  let mux := runtime_NewServeMux opts in
  let dialOpts := [WithInsecure] in
  emit (EvRegister ":10808" dialOpts) ;;;
  let '(mux, err) := RegisterThingsHandlerFromEndpoint mux ":10808" dialOpts in
  match err with
  | Some e => ret (None, Some e)
  | None => ret (Some mux, None)
  end.

(** mux := http.NewServeMux(); mux.Handle("/", gw) *)
Definition rootMux (gw : runtimeServeMux) : Handler response Σ :=
  ServeMux_ServeHTTP [("/", runtime_ServeHTTP gw)].

(** Run starts a HTTP server and blocks forever if successful.  The
    deferred cancel() runs when Run returns or unwinds.  A nil handler
    with a nil error is a pair newGateway never returns; mux.Handle panics
    on a nil handler. *)
Definition Run (address : string) (opts : list ServeMuxOption)
  : IO (completion (option E)) :=
  res <- newGateway opts ;;
  match res with
  | (_, Some err) => emit EvCancel ;;; ret (Returns (Some err))
  | (None, None) => emit EvCancel ;;; ret Panics
  | (Some gw, None) =>
      emit (EvListenAndServe address (handleCORS (rootMux gw))) ;;;
      match ListenAndServe_result address with
      | Returns err => emit EvCancel ;;; ret (Returns err)
      | BlocksForever => ret BlocksForever
      | Panics => emit EvCancel ;;; ret Panics
      end
  end.

(** main, with the way the process ends: the exit code (log.Fatal exits
    with 1), or never. *)
Definition main : IO (completion Z) :=
  emit (EvSetFlags 0) ;;;
  res <- Run bindAddress [] ;;
  match res with
  | Returns (Some err) => emit (EvFatal err) ;;; ret (Returns 1)
  | Returns None => ret (Returns 0)
  | BlocksForever => ret BlocksForever
  | Panics => ret Panics
  end.

(** The handler the first ListenAndServe of a trace is given. *)
Fixpoint liveHandler (t : list Event) : option (Handler response Σ) :=
  match t with
  | [] => None
  | EvListenAndServe _ h :: _ => Some h
  | _ :: rest => liveHandler rest
  end.

Definition isRegister (e : Event) : bool :=
  match e with EvRegister _ _ => true | _ => false end.

Definition isListenAndServe (e : Event) : bool :=
  match e with EvListenAndServe _ _ => true | _ => false end.

(** How many times a trace attempts [p]-events. *)
Definition attempts (p : Event -> bool) (t : list Event) : nat :=
  length (List.filter p t).

End Bootstrap.

(** ** Test doubles and sample data *)

(** A spy handler: it leaves the writer alone and appends the request it
    was given to its log. *)
Definition spy {W} : Handler W (list Request) :=
  fun w r log => (w, (log ++ [r])%list).

(** A handler that answers 404 with a short body. *)
Definition notFound {W} `{ResponseWriter W} : Handler W (list Request) :=
  fun w r log =>
    (Write "404 page not found" (WriteHeader 404 w), (log ++ [r])%list).

(** A handler that strikes the CORS origin header from the map before
    answering. *)
Definition stripOrigin {W} `{ResponseWriter W} : Handler W (list Request) :=
  fun w r log =>
    (WriteHeader 200 (PutHeader (delete "Access-Control-Allow-Origin" (GetHeader w)) w),
     (log ++ [r])%list).

Definition request (method host uri : string) (hdr : list (string * string)) : Request :=
  {| Method := method; Host := host; RequestURI := uri;
     ReqHeader := list_to_map (List.map (fun kv => (kv.1, [kv.2])) hdr) |}.

(** ** Specification vocabulary and sample data *)

(** The three headers a preflight answer carries, read with Get. *)
Definition preflight_answer (h : Header) : Prop :=
  Header_Get h "Access-Control-Allow-Headers" = strings_.Join headers ","
  /\ Header_Get h "Access-Control-Allow-Methods" = strings_.Join methods ","
  /\ Header_Get h "Access-Control-Max-Age" = "3600".

(** The header map of a complete preflight answer to [origin], spelled
    out as the specification lists it. *)
Definition preflightHeaders (origin : string) : Header :=
  <["Access-Control-Max-Age" := ["3600"]]>
  (<["Access-Control-Allow-Methods" := ["GET,HEAD,POST,PUT,PATCH,DELETE"]]>
  (<["Access-Control-Allow-Headers" :=
       ["Accept,Accept-Encoding,Authorization,Content-Type,Origin,User-Agent,X-CSRF-Token,X-CSRFToken,X-Request-ID,X-Requested-With"]]>
  (<["Access-Control-Allow-Origin" := [origin]]> ∅))).

(** Sample requests. *)
Definition preflight_request : Request :=
  request "OPTIONS" "example.com" "/v1/things"
    [("Origin", "https://app.example.org");
     ("Access-Control-Request-Method", "POST")].

Definition options_without_origin : Request :=
  request "OPTIONS" "example.com" "/v1/things"
    [("Access-Control-Request-Method", "POST")].

Definition get_with_origin : Request :=
  request "GET" "example.com" "/v1/things" [("Origin", "https://app.example.org")].

Definition get_without_origin : Request :=
  request "GET" "example.com" "/v1/things" [("Accept", "application/json")].

(** A handler leaves the header [k] alone when the value of [k] that goes
    out after it ran is the one that would have gone out had the response
    been finished just before it. *)
Definition leavesHeader {Σ} (k : string) (h : Handler response Σ) : Prop :=
  forall w r σ,
    sentHeader (finishRequest (h w r σ).1) !! k = sentHeader (finishRequest w) !! k.

(** Sample requests for the redirect. *)
Definition plain_http_request : Request :=
  request "GET" "example.com" "/foo?bar=1" [("X-Forwarded-Proto", "http")].

(** GET /caf\xc3\xa9: the path holds the two bytes of an e-acute in UTF-8. *)
Definition non_ascii_request : Request :=
  request "GET" "example.com"
    ("/caf" +:+ String (ascii_of_N 195) (String (ascii_of_N 169) EmptyString))
    [("X-Forwarded-Proto", "http")].

Definition forwarded (proto : string) : Request :=
  request "GET" "example.com" "/foo?bar=1" [("X-Forwarded-Proto", proto)].

(** A small world to run the bootstrap in: the gateway multiplexer is a
    spy, the root ServeMux dispatches every path to its first entry, the
    registration succeeds (or fails to dial), and the listener serves
    forever. *)
Definition sample_NewServeMux : list unit -> unit := fun _ => tt.

Definition sample_ServeHTTP : unit -> Handler response (list Request) :=
  fun _ => spy.

Definition sample_Register_ok
  : unit -> string -> list DialOption -> unit * option string :=
  fun mux _ _ => (mux, None).

Definition sample_Register_refused
  : unit -> string -> list DialOption -> unit * option string :=
  fun mux endpoint _ => (mux, Some ("dial tcp " +:+ endpoint +:+ ": connection refused")).

Definition sample_ServeMux
  : list (string * Handler response (list Request)) -> Handler response (list Request) :=
  fun entries =>
    match entries with
    | (_, h) :: _ => h
    | [] => notFound
    end.

Definition sample_Listen : string -> completion (option string) :=
  fun _ => BlocksForever.

(** ** Further vocabulary and sample data *)


(** The keys preflightHandler stores under. *)
Definition preflightKeys : list string :=
  ["Access-Control-Allow-Headers"; "Access-Control-Allow-Methods";
   "Access-Control-Max-Age"].

(** A preflight that asks for a method and a header outside the
    allow-lists. *)
Definition preflight_request_trace : Request :=
  request "OPTIONS" "example.com" "/v1/other"
    [("Origin", "https://app.example.org");
     ("Access-Control-Request-Method", "TRACE");
     ("Access-Control-Request-Headers", "X-Not-Allowed")].

(** Requests that arrived over plain http behind a proxy, with an Origin. *)
Definition cors_http_request : Request :=
  request "POST" "example.com" "/v1/things"
    [("Origin", "https://app.example.org"); ("X-Forwarded-Proto", "http")].

Definition preflight_http_request : Request :=
  request "OPTIONS" "example.com" "/v1/things"
    [("Origin", "https://app.example.org");
     ("Access-Control-Request-Method", "POST");
     ("X-Forwarded-Proto", "http")].


(** A writer on which an outer layer already stored headers. *)
Definition prepared_response : response :=
  {| handlerHeader :=
       <["Access-Control-Max-Age" := ["60"]]>
       (<["Access-Control-Allow-Origin" := ["*"]]>
       (<["X-Request-ID" := ["42"]]> ∅));
     wroteHeader := false; status := 0; sentHeader := ∅; written := "" |}.

(** A listener that cannot bind. *)
Definition sample_Listen_in_use : string -> completion (option string) :=
  fun address => Returns (Some ("listen tcp " +:+ address +:+ ": address already in use")).

(** The deferred cancel() of Run, as an event test. *)
Definition isCancel {Σ E : Type} (e : @Event Σ E) : bool :=
  match e with EvCancel => true | _ => false end.

Definition isFatal {Σ E : Type} (e : @Event Σ E) : bool :=
  match e with EvFatal _ => true | _ => false end.

(** * Properties *)

(** ** Header maps *)

(** The header names the program uses are already in canonical form, so
    Get and Set address the map at the literal key. *)
Lemma canonical_literals :
  Forall (fun k => textproto.CanonicalMIMEHeaderKey k = k)
    ["Origin"; "Access-Control-Request-Method"; "X-Forwarded-Proto";
     "Access-Control-Allow-Origin"; "Access-Control-Allow-Headers";
     "Access-Control-Allow-Methods"; "Access-Control-Max-Age";
     "Location"; "Content-Type"].
Proof. repeat constructor. Qed.


Lemma Header_Get_absent (h : Header) (key : string) :
  h !! textproto.CanonicalMIMEHeaderKey key = None -> Header_Get h key = "".
Proof. unfold Header_Get. by intros ->. Qed.

Lemma Header_Get_Set_eq (h : Header) (key key' value : string) :
  textproto.CanonicalMIMEHeaderKey key = textproto.CanonicalMIMEHeaderKey key' ->
  Header_Get (Header_Set h key value) key' = value.
Proof.
  intros Hk. unfold Header_Get, Header_Set.
  by rewrite Hk, lookup_insert_eq.
Qed.

Lemma Header_Get_Set_ne (h : Header) (key key' value : string) :
  textproto.CanonicalMIMEHeaderKey key <> textproto.CanonicalMIMEHeaderKey key' ->
  Header_Get (Header_Set h key value) key' = Header_Get h key'.
Proof.
  intros Hk. unfold Header_Get, Header_Set.
  by rewrite lookup_insert_ne.
Qed.

(** Get answers the empty string exactly for a key that is absent, that
    holds no value, or whose first value is empty. *)
Lemma Header_Get_empty_iff (h : Header) (key : string) :
  Header_Get h key = "" <->
  h !! textproto.CanonicalMIMEHeaderKey key = None
  \/ h !! textproto.CanonicalMIMEHeaderKey key = Some []
  \/ exists vs, h !! textproto.CanonicalMIMEHeaderKey key = Some ("" :: vs).
Proof.
  unfold Header_Get.
  destruct (h !! textproto.CanonicalMIMEHeaderKey key) as [[|v vs]|]; split.
  - auto.
  - reflexivity.
  - intros ->. eauto.
  - intros [?|[?|[vs' ?]]]; congruence.
  - auto.
  - reflexivity.
Qed.

(** Go's [s != ""] as a boolean test. *)
Lemma nonempty_eqb (s : string) : s <> "" -> negb (String.eqb s "") = true.
Proof. intros Hs. apply negb_true_iff. by apply String.eqb_neq. Qed.

Lemma empty_eqb (s : string) : s = "" -> negb (String.eqb s "") = false.
Proof. by intros ->. Qed.

Lemma isPreflight_true (r : Request) :
  Method r = "OPTIONS" ->
  Header_Get (ReqHeader r) "Access-Control-Request-Method" <> "" ->
  isPreflight r = true.
Proof.
  intros Hm Hh. unfold isPreflight.
  by rewrite Hm, (nonempty_eqb _ Hh).
Qed.

(** ** handleCORS *)

Lemma preflight_answer_preflightHandler (h : Header) :
  preflight_answer
    (Header_Set (Header_Set (Header_Set h
       "Access-Control-Allow-Headers" (strings_.Join headers ","))
       "Access-Control-Allow-Methods" (strings_.Join methods ","))
       "Access-Control-Max-Age" "3600").
Proof.
  repeat split.
  - rewrite !Header_Get_Set_ne by (vm_compute; discriminate).
    by apply Header_Get_Set_eq.
  - rewrite Header_Get_Set_ne by (vm_compute; discriminate).
    by apply Header_Get_Set_eq.
  - by apply Header_Get_Set_eq.
Qed.

(** With an Origin, handleCORS first echoes it and then either answers the
    preflight itself or delegates; without one it is the wrapped handler. *)
Lemma handleCORS_with_origin {W Σ} `{ResponseWriter W}
    (h : Handler W Σ) (w : W) (r : Request) (σ : Σ) :
  Header_Get (ReqHeader r) "Origin" <> "" ->
  handleCORS h w r σ =
    let w1 := SetHeader "Access-Control-Allow-Origin"
                (Header_Get (ReqHeader r) "Origin") w in
    if isPreflight r then (preflightHandler w1 r, σ) else h w1 r σ.
Proof.
  intros Ho. unfold handleCORS. by rewrite (nonempty_eqb _ Ho).
Qed.

Lemma handleCORS_no_origin {W Σ} `{ResponseWriter W}
    (h : Handler W Σ) (w : W) (r : Request) (σ : Σ) :
  Header_Get (ReqHeader r) "Origin" = "" ->
  handleCORS h w r σ = h w r σ.
Proof.
  intros Ho. unfold handleCORS. by rewrite (empty_eqb _ Ho).
Qed.

(** What the server sends for a preflight: status 200, no body, and the
    four CORS headers and nothing else. *)
Lemma serve_preflight {Σ} (h : Handler response Σ) (r : Request) (σ : Σ) :
  Header_Get (ReqHeader r) "Origin" <> "" ->
  isPreflight r = true ->
  serve (handleCORS h) r σ =
    ({| handlerHeader := preflightHeaders (Header_Get (ReqHeader r) "Origin");
        wroteHeader := true; status := 200;
        sentHeader := preflightHeaders (Header_Get (ReqHeader r) "Origin");
        written := "" |}, σ).
Proof.
  intros Ho Hp. unfold serve.
  rewrite (handleCORS_with_origin h _ r σ Ho). cbv zeta. rewrite Hp.
  reflexivity.
Qed.

Lemma notFound_leavesHeader (k : string) : leavesHeader k (@notFound response _).
Proof. intros [hh [] st sh b] r σ; reflexivity. Qed.

Lemma spy_leavesHeader (k : string) : leavesHeader k (@spy response).
Proof. intros w r σ; reflexivity. Qed.

(** C1 as amended: an OPTIONS request with a non-empty
    Access-Control-Request-Method header and a non-empty Origin header is
    answered by handleCORS itself: on any writer it sets the echoed origin
    and the three preflight headers and returns with the handler's state
    untouched, and the response the server sends carries
    Access-Control-Allow-Headers, Access-Control-Allow-Methods and
    Access-Control-Max-Age: 3600, whatever the wrapped handler is. *)
Theorem handleCORS_preflight_short_circuits (r : Request)
    (Hmethod : Method r = "OPTIONS")
    (Hacrm : Header_Get (ReqHeader r) "Access-Control-Request-Method" <> "")
    (Horigin : Header_Get (ReqHeader r) "Origin" <> "") :
  (forall (W : Type) (RW : ResponseWriter W) (Σ : Type) (h : Handler W Σ) (w : W) (σ : Σ),
      handleCORS h w r σ =
        (preflightHandler
           (SetHeader "Access-Control-Allow-Origin"
              (Header_Get (ReqHeader r) "Origin") w) r, σ))
  /\ (forall (Σ : Type) (h : Handler response Σ) (σ : Σ),
        preflight_answer (sentHeader (serve (handleCORS h) r σ).1)
        /\ (serve (handleCORS h) r σ).2 = σ).
Proof.
  pose proof (isPreflight_true r Hmethod Hacrm) as Hp.
  split.
  - intros W RW Σ h w σ.
    rewrite (handleCORS_with_origin h w r σ Horigin). cbv zeta. by rewrite Hp.
  - intros Σ h σ. rewrite (serve_preflight h r σ Horigin Hp). cbn [fst snd sentHeader].
    split; [|reflexivity].
    apply (preflight_answer_preflightHandler
             (Header_Set ∅ "Access-Control-Allow-Origin"
                (Header_Get (ReqHeader r) "Origin"))).
Qed.

Lemma handleCORS_preflight_short_circuits_witness :
  Method preflight_request = "OPTIONS"
  /\ Header_Get (ReqHeader preflight_request) "Access-Control-Request-Method" = "POST"
  /\ Header_Get (ReqHeader preflight_request) "Origin" = "https://app.example.org"
  /\ preflight_answer (sentHeader (serve (handleCORS spy) preflight_request []).1)
  /\ (serve (handleCORS spy) preflight_request []).2 = [].
Proof.
  split; [reflexivity|]. split; [reflexivity|]. split; [reflexivity|].
  apply (handleCORS_preflight_short_circuits preflight_request eq_refl);
    vm_compute; discriminate.
Defined.

(** C1 as stated fails: an OPTIONS request with
    Access-Control-Request-Method but no Origin gets none of the preflight
    headers, and the wrapped handler is invoked. *)
Lemma options_without_origin_not_short_circuited :
  ~ (forall r : Request,
        Method r = "OPTIONS" ->
        Header_Get (ReqHeader r) "Access-Control-Request-Method" <> "" ->
        preflight_answer (sentHeader (serve (handleCORS spy) r []).1)
        /\ (serve (handleCORS spy) r []).2 = []).
Proof.
  intros Hall.
  destruct (Hall options_without_origin eq_refl) as [_ Hcalls].
  - vm_compute. discriminate.
  - vm_compute in Hcalls. discriminate.
Qed.

(** C2: for every OPTIONS request with a non-empty Origin and a non-empty
    Access-Control-Request-Method, the response the server sends has
    status 200, no body and exactly the headers
    Access-Control-Allow-Origin (the origin), Access-Control-Allow-Headers
    (the ten allowed headers, comma-joined), Access-Control-Allow-Methods
    (GET,HEAD,POST,PUT,PATCH,DELETE) and Access-Control-Max-Age: 3600; the
    wrapped handler's state is untouched, and a spy records zero calls. *)
Theorem preflight_response_complete (r : Request)
    (Hmethod : Method r = "OPTIONS")
    (Horigin : Header_Get (ReqHeader r) "Origin" <> "")
    (Hacrm : Header_Get (ReqHeader r) "Access-Control-Request-Method" <> "") :
  (forall (Σ : Type) (h : Handler response Σ) (σ : Σ),
      serve (handleCORS h) r σ =
        ({| handlerHeader := preflightHeaders (Header_Get (ReqHeader r) "Origin");
            wroteHeader := true; status := 200;
            sentHeader := preflightHeaders (Header_Get (ReqHeader r) "Origin");
            written := "" |}, σ))
  /\ preflight_answer (preflightHeaders (Header_Get (ReqHeader r) "Origin"))
  /\ strings_.Join headers "," =
       "Accept,Accept-Encoding,Authorization,Content-Type,Origin,User-Agent,X-CSRF-Token,X-CSRFToken,X-Request-ID,X-Requested-With"
  /\ strings_.Join methods "," = "GET,HEAD,POST,PUT,PATCH,DELETE"
  /\ (serve (handleCORS spy) r []).2 = [].
Proof.
  pose proof (isPreflight_true r Hmethod Hacrm) as Hp.
  split; [|split; [|split; [|split]]].
  - intros Σ h σ. by apply serve_preflight.
  - apply (preflight_answer_preflightHandler
             (Header_Set ∅ "Access-Control-Allow-Origin"
                (Header_Get (ReqHeader r) "Origin"))).
  - reflexivity.
  - reflexivity.
  - by rewrite (serve_preflight spy r [] Horigin Hp).
Qed.

Lemma preflight_response_complete_witness :
  map_to_list (sentHeader (serve (handleCORS notFound) preflight_request []).1) =
    [("Access-Control-Max-Age", ["3600"]);
     ("Access-Control-Allow-Origin", ["https://app.example.org"]);
     ("Access-Control-Allow-Methods", ["GET,HEAD,POST,PUT,PATCH,DELETE"]);
     ("Access-Control-Allow-Headers",
      ["Accept,Accept-Encoding,Authorization,Content-Type,Origin,User-Agent,X-CSRF-Token,X-CSRFToken,X-Request-ID,X-Requested-With"])]
  /\ (serve (handleCORS notFound) preflight_request []).2 = [].
Proof.
  assert (Ho : Header_Get (ReqHeader preflight_request) "Origin" <> "")
    by (vm_compute; discriminate).
  assert (Ha : Header_Get (ReqHeader preflight_request)
                 "Access-Control-Request-Method" <> "")
    by (vm_compute; discriminate).
  destruct (preflight_response_complete preflight_request eq_refl Ho Ha) as [Hserve _].
  rewrite (Hserve _ notFound []). split; reflexivity.
Defined.

(** C3: for every request whose Origin header has the non-empty value X,
    handleCORS stores exactly [X] under Access-Control-Allow-Origin on the
    writer before anything else, on the preflight path and on the
    delegating path alike and with no test on X; a preflight response
    carries it for any wrapped handler, and so does every response whose
    wrapped handler leaves that header alone. *)
Theorem handleCORS_echoes_origin (r : Request) (X : string)
    (HX : Header_Get (ReqHeader r) "Origin" = X)
    (Hne : X <> "") :
  (forall (W : Type) (RW : ResponseWriter W) (Σ : Type) (h : Handler W Σ) (w : W) (σ : Σ),
      handleCORS h w r σ =
        if isPreflight r
        then (preflightHandler (SetHeader "Access-Control-Allow-Origin" X w) r, σ)
        else h (SetHeader "Access-Control-Allow-Origin" X w) r σ)
  /\ (forall w : response,
        handlerHeader (SetHeader "Access-Control-Allow-Origin" X w)
          !! "Access-Control-Allow-Origin" = Some [X])
  /\ (isPreflight r = true ->
      forall (Σ : Type) (h : Handler response Σ) (σ : Σ),
        sentHeader (serve (handleCORS h) r σ).1
          !! "Access-Control-Allow-Origin" = Some [X])
  /\ (forall (Σ : Type) (h : Handler response Σ) (σ : Σ),
        leavesHeader "Access-Control-Allow-Origin" h ->
        sentHeader (serve (handleCORS h) r σ).1
          !! "Access-Control-Allow-Origin" = Some [X]).
Proof.
  assert (Ho : Header_Get (ReqHeader r) "Origin" <> "") by congruence.
  split; [|split; [|split]].
  - intros W RW Σ h w σ.
    rewrite (handleCORS_with_origin h w r σ Ho). cbv zeta. by rewrite HX.
  - intros w. apply lookup_insert_eq.
  - intros Hp Σ h σ. rewrite (serve_preflight h r σ Ho Hp), HX. reflexivity.
  - intros Σ h σ Hleaves. destruct (isPreflight r) eqn:Hp.
    + rewrite (serve_preflight h r σ Ho Hp), HX. reflexivity.
    + unfold serve. rewrite (handleCORS_with_origin h _ r σ Ho). cbv zeta.
      rewrite Hp, HX.
      specialize (Hleaves
        (SetHeader "Access-Control-Allow-Origin" X newResponse) r σ).
      destruct (h _ r σ) as [w' σ']. apply Hleaves.
Qed.

Lemma handleCORS_echoes_origin_witness :
  Header_Get (ReqHeader get_with_origin) "Origin" = "https://app.example.org"
  /\ sentHeader (serve (handleCORS notFound) get_with_origin []).1
       !! "Access-Control-Allow-Origin" = Some ["https://app.example.org"]
  /\ status (serve (handleCORS notFound) get_with_origin []).1 = 404.
Proof.
  split; [reflexivity|]. split; [|reflexivity].
  assert (Hne : "https://app.example.org" <> "") by discriminate.
  destruct (handleCORS_echoes_origin get_with_origin
              "https://app.example.org" eq_refl Hne) as (_ & _ & _ & Hsent).
  apply (Hsent _ notFound []), notFound_leavesHeader.
Defined.

(** The frame condition of C3 is about the wrapped handler only: a handler
    that deletes the header itself sends a response without it. *)
Remark stripOrigin_overrides_echo :
  sentHeader (serve (handleCORS stripOrigin) get_with_origin []).1
    !! "Access-Control-Allow-Origin" = None.
Proof. reflexivity. Qed.

(** C4: for every request whose Origin header is absent or empty,
    handleCORS is the wrapped handler: the handler runs once on the writer
    as handleCORS received it and on the same request, so no CORS header
    is added; with a spy the response has an empty header map and the log
    holds the request exactly once. *)
Theorem handleCORS_without_origin_delegates (r : Request)
    (Horigin : Header_Get (ReqHeader r) "Origin" = "") :
  (forall (W : Type) (RW : ResponseWriter W) (Σ : Type) (h : Handler W Σ) (w : W) (σ : Σ),
      handleCORS h w r σ = h w r σ)
  /\ serve (handleCORS spy) r [] =
       ({| handlerHeader := ∅; wroteHeader := true; status := 200;
           sentHeader := ∅; written := "" |}, [r]).
Proof.
  split.
  - intros W RW Σ h w σ. by apply handleCORS_no_origin.
  - unfold serve. by rewrite (handleCORS_no_origin spy _ r [] Horigin).
Qed.

Lemma handleCORS_without_origin_delegates_witness :
  Header_Get (ReqHeader get_without_origin) "Origin" = ""
  /\ serve (handleCORS spy) get_without_origin [] =
       ({| handlerHeader := ∅; wroteHeader := true; status := 200;
           sentHeader := ∅; written := "" |}, [get_without_origin]).
Proof.
  split; [reflexivity|].
  apply (handleCORS_without_origin_delegates get_without_origin eq_refl).
Defined.

(** C10: an OPTIONS request with a non-empty
    Access-Control-Request-Method header but no (or an empty) Origin header
    passes the preflight test, yet handleCORS never evaluates it: it is the
    wrapped handler on the unchanged writer and request, no CORS header is
    written and a spy is invoked exactly once. *)
Theorem options_without_origin_delegates (r : Request)
    (Hmethod : Method r = "OPTIONS")
    (Hacrm : Header_Get (ReqHeader r) "Access-Control-Request-Method" <> "")
    (Horigin : Header_Get (ReqHeader r) "Origin" = "") :
  isPreflight r = true
  /\ (forall (W : Type) (RW : ResponseWriter W) (Σ : Type) (h : Handler W Σ) (w : W) (σ : Σ),
        handleCORS h w r σ = h w r σ)
  /\ serve (handleCORS spy) r [] =
       ({| handlerHeader := ∅; wroteHeader := true; status := 200;
           sentHeader := ∅; written := "" |}, [r]).
Proof.
  split; [by apply isPreflight_true|]. split.
  - intros W RW Σ h w σ. by apply handleCORS_no_origin.
  - unfold serve. by rewrite (handleCORS_no_origin spy _ r [] Horigin).
Qed.

Lemma options_without_origin_delegates_witness :
  Method options_without_origin = "OPTIONS"
  /\ Header_Get (ReqHeader options_without_origin)
       "Access-Control-Request-Method" = "POST"
  /\ Header_Get (ReqHeader options_without_origin) "Origin" = ""
  /\ (serve (handleCORS spy) options_without_origin []).2 = [options_without_origin]
  /\ sentHeader (serve (handleCORS spy) options_without_origin []).1 = ∅.
Proof.
  split; [reflexivity|]. split; [reflexivity|]. split; [reflexivity|].
  assert (Ha : Header_Get (ReqHeader options_without_origin)
                 "Access-Control-Request-Method" <> "")
    by (vm_compute; discriminate).
  destruct (options_without_origin_delegates options_without_origin
              eq_refl Ha eq_refl) as (_ & _ & ->).
  split; reflexivity.
Defined.

(** ** redirectHTTP *)

Lemma isASCII_cons (c : ascii) (s : string) :
  strings_.isASCII (String c s) = (N_of_ascii c <? 128)%N && strings_.isASCII s.
Proof. reflexivity. Qed.

Lemma isASCII_app (a b : string) :
  strings_.isASCII (a +:+ b) = strings_.isASCII a && strings_.isASCII b.
Proof.
  induction a as [|c a IH]; [reflexivity|].
  change (String c a +:+ b) with (String c (a +:+ b)).
  by rewrite !isASCII_cons, IH, andb_assoc.
Qed.

(** hexEscapeNonASCII changes nothing in a string of ASCII bytes. *)
Lemma hexEscapeNonASCII_ascii (s : string) :
  strings_.isASCII s = true -> hexEscapeNonASCII s = s.
Proof.
  induction s as [|c s IH]; [reflexivity|].
  rewrite isASCII_cons. intros [Hc Hs]%andb_true_iff.
  cbn [hexEscapeNonASCII]. cbv zeta.
  apply N.ltb_lt in Hc.
  destruct (N.leb_spec 128 (N_of_ascii c)) as [Hge|_]; [lia|].
  by rewrite (IH Hs).
Qed.

(** Redirect on a server writer whose status is still open: the status is
    the code given and the frozen headers carry the escaped url. *)
Lemma Redirect_response (w : response) (r : Request) (url : string) (code : Z) :
  wroteHeader w = false ->
  wroteHeader (Redirect w r url code) = true
  /\ status (Redirect w r url code) = code
  /\ sentHeader (Redirect w r url code) !! "Location"
       = Some [hexEscapeNonASCII url].
Proof.
  destruct w as [hh wh st sh b]. cbn [wroteHeader]. intros ->.
  unfold Redirect.
  destruct (negb _ && (_ || _)), (negb _ && String.eqb _ _);
    (split; [reflexivity|split; [reflexivity|]]);
    cbn; unfold Header_Set;
    rewrite ?(lookup_insert_ne _ "Content-Type" "Location") by discriminate;
    apply lookup_insert_eq.
Qed.

Lemma redirectHTTP_http {W Σ} `{ResponseWriter W}
    (h : Handler W Σ) (w : W) (r : Request) (σ : Σ) :
  Header_Get (ReqHeader r) "X-Forwarded-Proto" = "http" ->
  redirectHTTP h w r σ =
    (Redirect w r ("https://" +:+ Host r +:+ RequestURI r) StatusMovedPermanently, σ).
Proof. intros Hp. unfold redirectHTTP. by rewrite Hp. Qed.

Lemma redirectHTTP_other {W Σ} `{ResponseWriter W}
    (h : Handler W Σ) (w : W) (r : Request) (σ : Σ) :
  Header_Get (ReqHeader r) "X-Forwarded-Proto" <> "http" ->
  redirectHTTP h w r σ = h w r σ.
Proof.
  intros Hp. unfold redirectHTTP.
  by apply String.eqb_neq in Hp as ->.
Qed.

Lemma serve_redirectHTTP {Σ} (h : Handler response Σ) (r : Request) (σ : Σ) :
  Header_Get (ReqHeader r) "X-Forwarded-Proto" = "http" ->
  let resp := (serve (redirectHTTP h) r σ).1 in
  status resp = 301
  /\ sentHeader resp !! "Location"
       = Some [hexEscapeNonASCII ("https://" +:+ Host r +:+ RequestURI r)]
  /\ (serve (redirectHTTP h) r σ).2 = σ.
Proof.
  intros Hp. unfold serve. rewrite (redirectHTTP_http h _ r σ Hp).
  cbn [fst snd].
  destruct (Redirect_response newResponse r
              ("https://" +:+ Host r +:+ RequestURI r) StatusMovedPermanently
              eq_refl) as (Hw & Hs & Hl).
  unfold finishRequest. rewrite Hw. by rewrite Hs, Hl.
Qed.

(** C5 as amended: for every request whose X-Forwarded-Proto header is
    exactly "http", redirectHTTP calls http.Redirect with the url
    "https://" + Host + RequestURI and status 301 and does not invoke the
    wrapped handler; the response has status 301 and its Location is that
    url with each byte at or above 0x80 hex-escaped, which is the url
    itself, byte for byte, whenever Host and RequestURI are ASCII. *)
Theorem redirectHTTP_redirects (r : Request)
    (Hproto : Header_Get (ReqHeader r) "X-Forwarded-Proto" = "http") :
  (forall (W : Type) (RW : ResponseWriter W) (Σ : Type) (h : Handler W Σ) (w : W) (σ : Σ),
      redirectHTTP h w r σ =
        (Redirect w r ("https://" +:+ Host r +:+ RequestURI r) 301, σ))
  /\ (forall (Σ : Type) (h : Handler response Σ) (σ : Σ),
        status (serve (redirectHTTP h) r σ).1 = 301
        /\ sentHeader (serve (redirectHTTP h) r σ).1 !! "Location"
             = Some [hexEscapeNonASCII ("https://" +:+ Host r +:+ RequestURI r)]
        /\ (serve (redirectHTTP h) r σ).2 = σ)
  /\ (strings_.isASCII (Host r) = true ->
      strings_.isASCII (RequestURI r) = true ->
      forall (Σ : Type) (h : Handler response Σ) (σ : Σ),
        sentHeader (serve (redirectHTTP h) r σ).1 !! "Location"
          = Some ["https://" +:+ Host r +:+ RequestURI r]).
Proof.
  split; [|split].
  - intros W RW Σ h w σ. by apply redirectHTTP_http.
  - intros Σ h σ. by apply serve_redirectHTTP.
  - intros Hhost Huri Σ h σ.
    destruct (serve_redirectHTTP h r σ Hproto) as (_ & -> & _).
    rewrite hexEscapeNonASCII_ascii; [reflexivity|].
    by rewrite !isASCII_app, Hhost, Huri.
Qed.

Lemma redirectHTTP_redirects_witness :
  Header_Get (ReqHeader plain_http_request) "X-Forwarded-Proto" = "http"
  /\ status (serve (redirectHTTP spy) plain_http_request []).1 = 301
  /\ sentHeader (serve (redirectHTTP spy) plain_http_request []).1 !! "Location"
       = Some ["https://example.com/foo?bar=1"]
  /\ (serve (redirectHTTP spy) plain_http_request []).2 = [].
Proof.
  split; [reflexivity|].
  destruct (redirectHTTP_redirects plain_http_request eq_refl)
    as (_ & Hserve & Hverbatim).
  destruct (Hserve _ spy []) as (Hs & _ & Hlog).
  split; [exact Hs|]. split; [|exact Hlog].
  exact (Hverbatim eq_refl eq_refl _ spy []).
Defined.

(** C5 as stated fails: with a non-ASCII byte in the request URI the
    Location is not "https://" + Host + RequestURI byte for byte. *)
Lemma redirect_location_not_verbatim :
  ~ (forall r : Request,
        Header_Get (ReqHeader r) "X-Forwarded-Proto" = "http" ->
        status (serve (redirectHTTP spy) r []).1 = 301
        /\ sentHeader (serve (redirectHTTP spy) r []).1 !! "Location"
             = Some ["https://" +:+ Host r +:+ RequestURI r]
        /\ (serve (redirectHTTP spy) r []).2 = []).
Proof.
  intros Hall.
  destruct (Hall non_ascii_request eq_refl) as (_ & Hloc & _).
  vm_compute in Hloc. discriminate.
Qed.

Example redirect_location_escaped :
  sentHeader (serve (redirectHTTP spy) non_ascii_request []).1 !! "Location"
    = Some ["https://example.com/caf%c3%a9"].
Proof. reflexivity. Qed.

(** C6: for every request whose X-Forwarded-Proto header is absent or is
    any string other than exactly "http" (the comparison is on bytes, so
    "https", "HTTP" and "Http" are other strings), redirectHTTP is the
    wrapped handler on the unchanged writer and request: the handler runs
    once and nothing is written before it; with a spy the response is a
    plain 200 without Location and the log holds the request once. *)
Theorem redirectHTTP_passes_through (r : Request)
    (Hproto : Header_Get (ReqHeader r) "X-Forwarded-Proto" <> "http") :
  (forall (W : Type) (RW : ResponseWriter W) (Σ : Type) (h : Handler W Σ) (w : W) (σ : Σ),
      redirectHTTP h w r σ = h w r σ)
  /\ serve (redirectHTTP spy) r [] =
       ({| handlerHeader := ∅; wroteHeader := true; status := 200;
           sentHeader := ∅; written := "" |}, [r]).
Proof.
  split.
  - intros W RW Σ h w σ. by apply redirectHTTP_other.
  - unfold serve. by rewrite (redirectHTTP_other spy _ r [] Hproto).
Qed.

Lemma redirectHTTP_passes_through_witness :
  Forall (fun r =>
            Header_Get (ReqHeader r) "X-Forwarded-Proto" <> "http"
            /\ status (serve (redirectHTTP spy) r []).1 = 200
            /\ sentHeader (serve (redirectHTTP spy) r []).1 !! "Location" = None
            /\ (serve (redirectHTTP spy) r []).2 = [r])
    [forwarded "https"; forwarded "HTTP"; forwarded "Http"; get_without_origin].
Proof.
  assert (Hall : forall r : Request,
             Header_Get (ReqHeader r) "X-Forwarded-Proto" <> "http" ->
             status (serve (redirectHTTP spy) r []).1 = 200
             /\ sentHeader (serve (redirectHTTP spy) r []).1 !! "Location" = None
             /\ (serve (redirectHTTP spy) r []).2 = [r]).
  { intros r Hp. destruct (redirectHTTP_passes_through r Hp) as [_ ->].
    repeat split. }
  repeat (constructor;
          [split; [vm_compute; discriminate | apply Hall; vm_compute; discriminate]|]).
  constructor.
Defined.

(** ** loggingResponseWriter *)

Lemma lrw_do_call_statusCode {W} `{ResponseWriter W}
    (c : call) (lrw : loggingResponseWriter W) :
  statusCode (do_call c lrw) =
    match c with CallWriteHeader code => code | _ => statusCode lrw end.
Proof. by destruct c. Qed.

(** The recorded status after the calls [cs]: the code of the last
    WriteHeader among them, and the status recorded before otherwise. *)
Lemma lrw_do_calls_statusCode {W} `{ResponseWriter W}
    (cs : list call) (lrw : loggingResponseWriter W) :
  statusCode (do_calls cs lrw) = default (statusCode lrw) (lastWriteHeader cs).
Proof.
  revert lrw. induction cs as [|c cs IH]; intros lrw; [reflexivity|].
  change (do_calls (c :: cs) lrw) with (do_calls cs (do_call c lrw)).
  rewrite IH, lrw_do_call_statusCode. cbn [lastWriteHeader].
  destruct (lastWriteHeader cs) as [code|]; [reflexivity|].
  by destruct c.
Qed.

(** C7: NewLoggingResponseWriter records 200; after any sequence of calls
    a handler makes on the writer (header edits, Write, WriteHeader), over
    any wrapped writer, statusCode is the code of the last WriteHeader
    call, or 200 when there was none; a handler that writes 404 leaves
    404. *)
Theorem loggingResponseWriter_records_last_status :
  forall (W : Type) (RW : ResponseWriter W) (w : W),
    statusCode (NewLoggingResponseWriter w) = 200
    /\ (forall cs : list call,
          statusCode (do_calls cs (NewLoggingResponseWriter w))
            = default 200 (lastWriteHeader cs))
    /\ (forall cs : list call,
          lastWriteHeader cs = None ->
          statusCode (do_calls cs (NewLoggingResponseWriter w)) = 200)
    /\ (forall (cs cs' : list call) (code : Z),
          lastWriteHeader cs' = None ->
          statusCode (do_calls (cs ++ CallWriteHeader code :: cs')
                        (NewLoggingResponseWriter w)) = code)
    /\ statusCode (do_calls [CallWriteHeader 404; CallWrite "404 page not found"]
                     (NewLoggingResponseWriter w)) = 404.
Proof.
  intros W RW w.
  assert (Hlast : forall cs cs' code,
             lastWriteHeader cs' = None ->
             lastWriteHeader (cs ++ CallWriteHeader code :: cs')%list = Some code).
  { intros cs cs' code Hnone. induction cs as [|c cs IH]; cbn.
    - by rewrite Hnone.
    - cbn in IH. by rewrite IH. }
  split; [reflexivity|]. split; [|split; [|split]].
  - intros cs. by rewrite lrw_do_calls_statusCode.
  - intros cs Hnone. by rewrite lrw_do_calls_statusCode, Hnone.
  - intros cs cs' code Hnone.
    by rewrite lrw_do_calls_statusCode, (Hlast cs cs' code Hnone).
  - reflexivity.
Qed.

(** ** newGateway and Run *)

Section BootstrapProperties.

Context {Σ E ServeMuxOption runtimeServeMux : Type}.
Variable runtime_NewServeMux : list ServeMuxOption -> runtimeServeMux.
Variable runtime_ServeHTTP : runtimeServeMux -> Handler response Σ.
Variable RegisterThingsHandlerFromEndpoint :
  runtimeServeMux -> string -> list DialOption -> runtimeServeMux * option E.
Variable ServeMux_ServeHTTP :
  list (string * Handler response Σ) -> Handler response Σ.
Variable ListenAndServe_result : string -> completion (option E).

Local Abbreviation newGateway' :=
  (@newGateway Σ E _ _ runtime_NewServeMux RegisterThingsHandlerFromEndpoint).
Local Abbreviation Run' :=
  (Run runtime_NewServeMux runtime_ServeHTTP RegisterThingsHandlerFromEndpoint
     ServeMux_ServeHTTP ListenAndServe_result).
Local Abbreviation main' :=
  (main runtime_NewServeMux runtime_ServeHTTP RegisterThingsHandlerFromEndpoint
     ServeMux_ServeHTTP ListenAndServe_result).
Local Abbreviation rootMux' := (rootMux runtime_ServeHTTP ServeMux_ServeHTTP).

(** The one registration call newGateway makes. *)
Local Abbreviation registration opts :=
  (RegisterThingsHandlerFromEndpoint (runtime_NewServeMux opts) ":10808"
     [WithInsecure]).

Lemma newGateway_eq (opts : list ServeMuxOption) :
  newGateway' opts =
    (match (registration opts).2 with
     | Some e => (None, Some e)
     | None => (Some (registration opts).1, None)
     end,
     [EvLog ("starting gateway server on :8080" +:+ newline); EvRegister ":10808" [WithInsecure]]).
Proof.
  unfold newGateway, bind, emit, ret.
  destruct (registration opts) as [mux [e|]]; reflexivity.
Qed.

Lemma Run_registration_fails (address : string) (opts : list ServeMuxOption) (e : E) :
  (registration opts).2 = Some e ->
  Run' address opts =
    (Returns (Some e),
     [EvLog ("starting gateway server on :8080" +:+ newline); EvRegister ":10808" [WithInsecure]; EvCancel]).
Proof.
  intros He. unfold Run, bind. rewrite newGateway_eq, He. reflexivity.
Qed.

Lemma Run_registration_succeeds (address : string) (opts : list ServeMuxOption) :
  (registration opts).2 = None ->
  Run' address opts =
    (ListenAndServe_result address,
     [EvLog ("starting gateway server on :8080" +:+ newline); EvRegister ":10808" [WithInsecure];
      EvListenAndServe address (handleCORS (rootMux' (registration opts).1))]
     ++ match ListenAndServe_result address with
        | BlocksForever => []
        | _ => [EvCancel]
        end)%list.
Proof.
  intros He. unfold Run, bind. rewrite newGateway_eq, He.
  cbn [emit ret]. destruct (ListenAndServe_result address); reflexivity.
Qed.

(** C8: newGateway returns a non-nil error exactly when the registration
    against ":10808" returns one, and then the handler it returns is nil;
    otherwise it returns the registered multiplexer and a nil error.  It
    attempts the registration once.  When the registration fails, Run
    returns that error after one registration attempt and without any
    ListenAndServe, and main logs it fatally and exits with code 1. *)
Theorem newGateway_fails_iff_registration_fails :
  forall (address : string) (opts : list ServeMuxOption),
    (forall e : E,
        (newGateway' opts).1.2 = Some e <-> (registration opts).2 = Some e)
    /\ (forall e : E,
          (newGateway' opts).1.2 = Some e -> (newGateway' opts).1.1 = None)
    /\ ((newGateway' opts).1.2 = None ->
        (newGateway' opts).1.1 = Some (registration opts).1)
    /\ attempts isRegister (newGateway' opts).2 = 1%nat
    /\ (forall e : E,
          (registration opts).2 = Some e ->
          (Run' address opts).1 = Returns (Some e)
          /\ attempts isRegister (Run' address opts).2 = 1%nat
          /\ attempts isListenAndServe (Run' address opts).2 = 0%nat
          /\ liveHandler (Run' address opts).2 = None)
    /\ (forall e : E,
          (registration []).2 = Some e ->
          main' =
            (Returns 1,
             [EvSetFlags 0;
              EvLog ("starting gateway server on :8080" +:+ newline);
              EvRegister ":10808" [WithInsecure]; EvCancel; EvFatal e])).
Proof.
  intros address opts. rewrite newGateway_eq. cbn [fst snd].
  split; [|split; [|split; [|split; [|split]]]].
  - intros e. destruct (registration opts).2; cbn; split; congruence.
  - intros e. destruct (registration opts).2; cbn; congruence.
  - destruct (registration opts).2; cbn; congruence.
  - reflexivity.
  - intros e He. rewrite (Run_registration_fails address opts e He).
    repeat split.
  - intros e He0.
    unfold main, bind. rewrite (Run_registration_fails bindAddress [] e He0).
    reflexivity.
Qed.

(** C9: when the registration succeeds, the one handler Run passes to
    ListenAndServe is handleCORS applied to the root multiplexer, with no
    redirectHTTP around or inside it.  On every request, whatever its
    X-Forwarded-Proto, that handler answers a preflight itself or hands the
    request to the multiplexer; a request with X-Forwarded-Proto: http and
    no Origin reaches the multiplexer on the untouched writer, where
    redirectHTTP would have answered 301 without calling it. *)
Theorem Run_serves_handleCORS_of_mux
    (address : string) (opts : list ServeMuxOption)
    (Hreg : (registration opts).2 = None) :
  let gw := (registration opts).1 in
  liveHandler (Run' address opts).2 = Some (handleCORS (rootMux' gw))
  /\ attempts isListenAndServe (Run' address opts).2 = 1%nat
  /\ (forall (r : Request) (w : response) (σ : Σ),
        handleCORS (rootMux' gw) w r σ =
          let origin := Header_Get (ReqHeader r) "Origin" in
          let w1 := if negb (String.eqb origin "")
                    then SetHeader "Access-Control-Allow-Origin" origin w
                    else w in
          if negb (String.eqb origin "") && isPreflight r
          then (preflightHandler w1 r, σ)
          else rootMux' gw w1 r σ)
  /\ (forall (r : Request) (w : response) (σ : Σ),
        Header_Get (ReqHeader r) "X-Forwarded-Proto" = "http" ->
        Header_Get (ReqHeader r) "Origin" = "" ->
        handleCORS (rootMux' gw) w r σ = rootMux' gw w r σ
        /\ redirectHTTP (rootMux' gw) w r σ =
             (Redirect w r ("https://" +:+ Host r +:+ RequestURI r) 301, σ)).
Proof.
  cbv zeta. rewrite (Run_registration_succeeds address opts Hreg). cbn [snd].
  split; [reflexivity|]. split; [|split].
  - destruct (ListenAndServe_result address); reflexivity.
  - intros r w σ. unfold handleCORS.
    destruct (negb (String.eqb (Header_Get (ReqHeader r) "Origin") ""));
      [destruct (isPreflight r)|]; reflexivity.
  - intros r w σ Hp Ho. split.
    + by apply handleCORS_no_origin.
    + by apply redirectHTTP_http.
Qed.

End BootstrapProperties.

Lemma Run_serves_handleCORS_of_mux_witness :
  (Run sample_NewServeMux sample_ServeHTTP sample_Register_ok sample_ServeMux
     sample_Listen ":8080" []).1 = BlocksForever
  /\ match liveHandler
             (Run sample_NewServeMux sample_ServeHTTP sample_Register_ok
                sample_ServeMux sample_Listen ":8080" []).2 with
     | Some live =>
         serve live plain_http_request [] =
           ({| handlerHeader := ∅; wroteHeader := true; status := 200;
               sentHeader := ∅; written := "" |}, [plain_http_request])
     | None => False
     end.
Proof.
  split; [reflexivity|].
  destruct (Run_serves_handleCORS_of_mux sample_NewServeMux sample_ServeHTTP
              sample_Register_ok sample_ServeMux sample_Listen ":8080" []
              eq_refl) as (-> & _).
  reflexivity.
Defined.

(** A backend that refuses the connection: Run returns the dial error
    after one registration attempt and never listens; main exits with 1. *)
Example Run_dial_refused :
  Run sample_NewServeMux sample_ServeHTTP sample_Register_refused sample_ServeMux
    sample_Listen ":8080" []
  = (Returns (Some "dial tcp :10808: connection refused"),
     [EvLog ("starting gateway server on :8080" +:+ newline);
      EvRegister ":10808" [WithInsecure]; EvCancel])
  /\ (main sample_NewServeMux sample_ServeHTTP sample_Register_refused
        sample_ServeMux sample_Listen).1 = Returns 1.
Proof. split; reflexivity. Qed.

(** * Further properties of the middlewares *)

(** Storing a header on the server's writer touches the map only. *)
Lemma SetHeader_response (key value : string) (w : response) :
  SetHeader key value w =
    {| handlerHeader := Header_Set (handlerHeader w) key value;
       wroteHeader := wroteHeader w; status := status w;
       sentHeader := sentHeader w; written := written w |}.
Proof. reflexivity. Qed.

Lemma Header_Set_twice (h : Header) (key v v' : string) :
  Header_Set (Header_Set h key v) key v' = Header_Set h key v'.
Proof. unfold Header_Set. apply insert_insert_eq. Qed.

Lemma preflightHandler_response (w : response) (r : Request) :
  preflightHandler w r =
    {| handlerHeader :=
         <["Access-Control-Max-Age" := ["3600"]]>
         (<["Access-Control-Allow-Methods" := [strings_.Join methods ","]]>
         (<["Access-Control-Allow-Headers" := [strings_.Join headers ","]]>
            (handlerHeader w)));
       wroteHeader := wroteHeader w; status := status w;
       sentHeader := sentHeader w; written := written w |}.
Proof. reflexivity. Qed.

(** X1: on the server's writer preflightHandler writes neither a status
    nor a body, leaves every header outside its three keys as it was,
    replaces whatever those three keys held, and running it twice is the
    same as running it once. *)
Theorem preflightHandler_frame :
  forall (w : response) (r : Request),
    (wroteHeader (preflightHandler w r) = wroteHeader w
     /\ status (preflightHandler w r) = status w
     /\ sentHeader (preflightHandler w r) = sentHeader w
     /\ written (preflightHandler w r) = written w)
    /\ (forall k : string,
          k ∉ preflightKeys ->
          handlerHeader (preflightHandler w r) !! k = handlerHeader w !! k)
    /\ preflight_answer (handlerHeader (preflightHandler w r))
    /\ preflightHandler (preflightHandler w r) r = preflightHandler w r.
Proof.
  intros w r. split; [repeat split|]. split; [|split].
  - intros k Hk. rewrite preflightHandler_response. cbn [handlerHeader].
    unfold preflightKeys in Hk.
    rewrite !lookup_insert_ne; [reflexivity|..]; intros <-; apply Hk;
      set_solver.
  - apply (preflight_answer_preflightHandler (handlerHeader w)).
  - rewrite !preflightHandler_response. cbn [handlerHeader wroteHeader status sentHeader written].
    f_equal. apply map_eq. intros k. rewrite !lookup_insert.
    repeat case_decide; reflexivity.
Qed.

(** X2: handleCORS keeps a request from the wrapped handler exactly when
    the request has a non-empty Origin, the method OPTIONS and a non-empty
    Access-Control-Request-Method; every other request reaches the handler
    exactly once. *)
Theorem handleCORS_invokes_handler_iff :
  forall r : Request,
    let answered :=
      Header_Get (ReqHeader r) "Origin" <> ""
      /\ Method r = "OPTIONS"
      /\ Header_Get (ReqHeader r) "Access-Control-Request-Method" <> "" in
    ((serve (handleCORS spy) r []).2 = [] <-> answered)
    /\ ((serve (handleCORS spy) r []).2 = [r] <-> ~ answered).
Proof.
  intros r. cbv zeta.
  assert (Hlog : (serve (handleCORS spy) r []).2 =
                   if negb (String.eqb (Header_Get (ReqHeader r) "Origin") "")
                      && isPreflight r
                   then [] else [r]).
  { unfold serve, handleCORS.
    destruct (negb _); [destruct (isPreflight r)|]; reflexivity. }
  rewrite Hlog. unfold isPreflight.
  destruct (String.eqb_spec (Header_Get (ReqHeader r) "Origin") "") as [Ho|Ho];
    destruct (String.eqb_spec (Method r) "OPTIONS") as [Hm|Hm];
    destruct (String.eqb_spec
                (Header_Get (ReqHeader r) "Access-Control-Request-Method") "")
      as [Ha|Ha];
    cbn [negb andb]; split; split; intros Hl;
    try discriminate Hl; try reflexivity; try tauto.
Qed.

(** X3: on the server's writer, wrapping a handler in handleCORS twice
    behaves as wrapping it once. *)
Theorem handleCORS_idempotent :
  forall (Σ : Type) (h : Handler response Σ) (w : response) (r : Request) (σ : Σ),
    handleCORS (handleCORS h) w r σ = handleCORS h w r σ.
Proof.
  intros Σ h w r σ.
  destruct (String.eqb_spec (Header_Get (ReqHeader r) "Origin") "") as [Ho|Ho].
  - by rewrite !handleCORS_no_origin.
  - rewrite (handleCORS_with_origin (handleCORS h) w r σ Ho). cbv zeta.
    destruct (isPreflight r) eqn:Hp.
    + rewrite (handleCORS_with_origin h w r σ Ho). cbv zeta. by rewrite Hp.
    + rewrite (handleCORS_with_origin h _ r σ Ho). cbv zeta. rewrite Hp.
      rewrite (handleCORS_with_origin h w r σ Ho). cbv zeta. rewrite Hp.
      f_equal. rewrite !SetHeader_response. cbn [handlerHeader wroteHeader status sentHeader written].
      by rewrite Header_Set_twice.
Qed.

(** X4: the answer to a preflight depends on the request's Origin only:
    two preflights with the same Origin get the same response whatever
    method or headers they ask for and whatever handlers are wrapped. *)
Theorem preflight_answer_depends_on_origin_only
    (r1 r2 : Request)
    (Ho1 : Header_Get (ReqHeader r1) "Origin" <> "")
    (Hp1 : isPreflight r1 = true)
    (Hp2 : isPreflight r2 = true)
    (Hsame : Header_Get (ReqHeader r2) "Origin" = Header_Get (ReqHeader r1) "Origin") :
  forall (Σ : Type) (h1 h2 : Handler response Σ) (σ : Σ),
    serve (handleCORS h1) r1 σ = serve (handleCORS h2) r2 σ.
Proof.
  intros Σ h1 h2 σ.
  assert (Ho2 : Header_Get (ReqHeader r2) "Origin" <> "") by congruence.
  by rewrite (serve_preflight h1 r1 σ Ho1 Hp1), (serve_preflight h2 r2 σ Ho2 Hp2), Hsame.
Qed.

Lemma preflight_answer_depends_on_origin_only_witness :
  Header_Get (ReqHeader preflight_request_trace) "Access-Control-Request-Method" = "TRACE"
  /\ serve (handleCORS spy) preflight_request [] =
       serve (handleCORS notFound) preflight_request_trace [].
Proof.
  split; [reflexivity|].
  apply (preflight_answer_depends_on_origin_only preflight_request
           preflight_request_trace); try reflexivity.
  vm_compute; discriminate.
Defined.

(** Redirect stores under Location and Content-Type only. *)
Lemma Redirect_frame (w : response) (r : Request) (url : string) (code : Z)
    (k : string) :
  wroteHeader w = false ->
  k <> "Location" -> k <> "Content-Type" ->
  sentHeader (Redirect w r url code) !! k = handlerHeader w !! k.
Proof.
  destruct w as [hh wh st sh b]. cbn [wroteHeader handlerHeader]. intros -> Hl Hc.
  unfold Redirect.
  destruct (negb _ && (_ || _)), (negb _ && String.eqb _ _);
    cbn; unfold Header_Set;
    rewrite ?(lookup_insert_ne _ "Content-Type" k) by congruence;
    by rewrite (lookup_insert_ne _ "Location" k) by congruence.
Qed.

Lemma serve_redirectHTTP_frame {Σ} (h : Handler response Σ) (r : Request) (σ : Σ)
    (k : string) :
  Header_Get (ReqHeader r) "X-Forwarded-Proto" = "http" ->
  k <> "Location" -> k <> "Content-Type" ->
  sentHeader (serve (redirectHTTP h) r σ).1 !! k = None.
Proof.
  intros Hp Hl Hc. unfold serve. rewrite (redirectHTTP_http h _ r σ Hp).
  cbn [fst].
  destruct (Redirect_response newResponse r
              ("https://" +:+ Host r +:+ RequestURI r) StatusMovedPermanently
              eq_refl) as (Hw & _ & _).
  unfold finishRequest. rewrite Hw.
  by rewrite Redirect_frame.
Qed.

(** X5: with redirectHTTP wired inside handleCORS, a request forwarded
    from plain http is redirected unless it is a preflight: a preflight is
    answered 200 without Location, any other request with an Origin gets
    the 301 with the origin echoed on it, and a request without Origin gets
    the plain redirect; the innermost handler is never invoked. *)
Theorem handleCORS_around_redirectHTTP (r : Request)
    (Hproto : Header_Get (ReqHeader r) "X-Forwarded-Proto" = "http") :
  forall (Σ : Type) (h : Handler response Σ) (σ : Σ),
    let out := serve (handleCORS (redirectHTTP h)) r σ in
    out.2 = σ
    /\ (Header_Get (ReqHeader r) "Origin" = "" ->
        out = serve (redirectHTTP h) r σ)
    /\ (Header_Get (ReqHeader r) "Origin" <> "" -> isPreflight r = true ->
        status out.1 = 200 /\ sentHeader out.1 !! "Location" = None)
    /\ (Header_Get (ReqHeader r) "Origin" <> "" -> isPreflight r = false ->
        status out.1 = 301
        /\ sentHeader out.1 !! "Location"
             = Some [hexEscapeNonASCII ("https://" +:+ Host r +:+ RequestURI r)]
        /\ sentHeader out.1 !! "Access-Control-Allow-Origin"
             = Some [Header_Get (ReqHeader r) "Origin"]).
Proof.
  intros Σ h σ. cbv zeta.
  assert (Hredirect :
    forall w : response, wroteHeader w = false ->
      let w' := finishRequest
                  (Redirect w r ("https://" +:+ Host r +:+ RequestURI r) 301) in
      status w' = 301
      /\ sentHeader w' !! "Location"
           = Some [hexEscapeNonASCII ("https://" +:+ Host r +:+ RequestURI r)]
      /\ sentHeader w' !! "Access-Control-Allow-Origin"
           = handlerHeader w !! "Access-Control-Allow-Origin").
  { intros w Hw. cbv zeta.
    destruct (Redirect_response w r ("https://" +:+ Host r +:+ RequestURI r) 301 Hw)
      as (Hw' & Hs & Hl).
    unfold finishRequest. rewrite Hw'. repeat split; [done|done|].
    by apply Redirect_frame. }
  destruct (String.eqb_spec (Header_Get (ReqHeader r) "Origin") "") as [Ho|Ho].
  - assert (Heq : serve (handleCORS (redirectHTTP h)) r σ = serve (redirectHTTP h) r σ).
    { unfold serve. by rewrite (handleCORS_no_origin _ _ r σ Ho). }
    rewrite Heq.
    destruct (serve_redirectHTTP h r σ Hproto) as (_ & _ & Hσ).
    repeat split; done.
  - destruct (isPreflight r) eqn:Hp.
    + rewrite (serve_preflight (redirectHTTP h) r σ Ho Hp).
      repeat split; done.
    + unfold serve. rewrite (handleCORS_with_origin _ _ r σ Ho). cbv zeta.
      rewrite Hp, (redirectHTTP_http h _ r σ Hproto). cbn [fst snd].
      split; [done|]. split; [done|]. split; [done|]. intros _ _.
      assert (Hfresh : wroteHeader
                         (SetHeader "Access-Control-Allow-Origin"
                            (Header_Get (ReqHeader r) "Origin") newResponse)
                       = false) by reflexivity.
      destruct (Hredirect _ Hfresh) as (Hs & Hl & Ha).
      split; [exact Hs|]. split; [exact Hl|].
      etrans; [exact Ha|]. apply lookup_insert_eq.
Qed.

Lemma handleCORS_around_redirectHTTP_witness :
  (status (serve (handleCORS (redirectHTTP spy)) preflight_http_request []).1 = 200
   /\ sentHeader (serve (handleCORS (redirectHTTP spy)) preflight_http_request []).1
        !! "Location" = None)
  /\ (status (serve (handleCORS (redirectHTTP spy)) cors_http_request []).1 = 301
      /\ sentHeader (serve (handleCORS (redirectHTTP spy)) cors_http_request []).1
           !! "Location" = Some ["https://example.com/v1/things"]
      /\ sentHeader (serve (handleCORS (redirectHTTP spy)) cors_http_request []).1
           !! "Access-Control-Allow-Origin" = Some ["https://app.example.org"]).
Proof.
  split.
  - destruct (handleCORS_around_redirectHTTP preflight_http_request eq_refl
                _ spy []) as (_ & _ & Hpre & _).
    apply Hpre; [vm_compute; discriminate | reflexivity].
  - destruct (handleCORS_around_redirectHTTP cors_http_request eq_refl
                _ spy []) as (_ & _ & _ & Hother).
    apply Hother; [vm_compute; discriminate | reflexivity].
Defined.

(** X6: with handleCORS wired inside redirectHTTP, a request forwarded
    from plain http is redirected before the CORS layer sees it: the
    response is the same whatever is wrapped, has status 301, and carries
    no header besides Location and Content-Type, so a preflight gets no
    CORS header at all. *)
Theorem redirectHTTP_around_handleCORS (r : Request)
    (Hproto : Header_Get (ReqHeader r) "X-Forwarded-Proto" = "http") :
  forall (Σ : Type) (h h' : Handler response Σ) (σ : Σ),
    serve (redirectHTTP (handleCORS h)) r σ = serve (redirectHTTP h') r σ
    /\ status (serve (redirectHTTP (handleCORS h)) r σ).1 = 301
    /\ (forall k : string,
          k <> "Location" -> k <> "Content-Type" ->
          sentHeader (serve (redirectHTTP (handleCORS h)) r σ).1 !! k = None).
Proof.
  intros Σ h h' σ. split; [|split].
  - unfold serve. by rewrite !(redirectHTTP_http _ _ r σ Hproto).
  - by destruct (serve_redirectHTTP (handleCORS h) r σ Hproto) as (-> & _).
  - intros k Hl Hc. by apply serve_redirectHTTP_frame.
Qed.

Lemma redirectHTTP_around_handleCORS_witness :
  isPreflight preflight_http_request = true
  /\ status (serve (redirectHTTP (handleCORS spy)) preflight_http_request []).1 = 301
  /\ sentHeader (serve (redirectHTTP (handleCORS spy)) preflight_http_request []).1
       !! "Access-Control-Allow-Origin" = None.
Proof.
  split; [reflexivity|].
  destruct (redirectHTTP_around_handleCORS preflight_http_request eq_refl
              _ spy spy []) as (_ & Hs & Hnone).
  split; [exact Hs|]. apply Hnone; discriminate.
Defined.



(** The two hexadecimal digits of a byte are ASCII. *)
Lemma hexDigit_ascii (c : ascii) :
  (N_of_ascii (hexDigit (N_of_ascii c / 16)) <? 128)%N = true
  /\ (N_of_ascii (hexDigit (N_of_ascii c mod 16)) <? 128)%N = true.
Proof. destruct c as [[] [] [] [] [] [] [] []]; split; reflexivity. Qed.

Lemma hexEscapeNonASCII_isASCII (s : string) :
  strings_.isASCII (hexEscapeNonASCII s) = true.
Proof.
  induction s as [|c s IH]; [reflexivity|].
  cbn [hexEscapeNonASCII]. cbv zeta.
  destruct (N.leb_spec 128 (N_of_ascii c)) as [Hge|Hlt].
  - destruct (hexDigit_ascii c) as [Hhi Hlo].
    rewrite !isASCII_cons, Hhi, Hlo, IH. reflexivity.
  - rewrite isASCII_cons, IH. by apply N.ltb_lt in Hlt as ->.
Qed.

(** X8: the Location redirectHTTP sends holds ASCII bytes only, and it is
    "https://" + Host + RequestURI byte for byte exactly when Host and
    RequestURI are ASCII. *)
Theorem redirect_location_ascii (r : Request)
    (Hproto : Header_Get (ReqHeader r) "X-Forwarded-Proto" = "http") :
  forall (Σ : Type) (h : Handler response Σ) (σ : Σ) (loc : string),
    sentHeader (serve (redirectHTTP h) r σ).1 !! "Location" = Some [loc] ->
    strings_.isASCII loc = true
    /\ (loc = "https://" +:+ Host r +:+ RequestURI r <->
        strings_.isASCII (Host r) = true /\ strings_.isASCII (RequestURI r) = true).
Proof.
  intros Σ h σ loc.
  destruct (serve_redirectHTTP h r σ Hproto) as (_ & -> & _).
  intros Hloc.
  assert (Hl : loc = hexEscapeNonASCII ("https://" +:+ Host r +:+ RequestURI r))
    by congruence.
  clear Hloc. subst loc. split; [apply hexEscapeNonASCII_isASCII|].
  split.
  - intros Heq.
    pose proof (hexEscapeNonASCII_isASCII
                  ("https://" +:+ Host r +:+ RequestURI r)) as Hascii.
    rewrite Heq, !isASCII_app in Hascii.
    apply andb_true_iff in Hascii as [_ Hascii].
    by apply andb_true_iff in Hascii.
  - intros [Hh Hu]. apply hexEscapeNonASCII_ascii.
    by rewrite !isASCII_app, Hh, Hu.
Qed.

Lemma redirect_location_ascii_witness :
  strings_.isASCII (RequestURI non_ascii_request) = false
  /\ strings_.isASCII "https://example.com/caf%c3%a9" = true
  /\ "https://example.com/caf%c3%a9"
       <> "https://" +:+ Host non_ascii_request +:+ RequestURI non_ascii_request.
Proof.
  split; [reflexivity|].
  destruct (redirect_location_ascii non_ascii_request eq_refl
              _ spy [] "https://example.com/caf%c3%a9" eq_refl) as [Hascii Hiff].
  split; [exact Hascii|].
  intros Heq. apply Hiff in Heq as [_ Hu]. discriminate Hu.
Defined.

(** * Further properties of loggingResponseWriter *)

Lemma lrw_do_calls_inner {W} `{ResponseWriter W}
    (cs : list call) (lrw : loggingResponseWriter W) :
  ResponseWriter_ (do_calls cs lrw) = do_calls cs (ResponseWriter_ lrw).
Proof.
  revert lrw. induction cs as [|c cs IH]; intros lrw; [reflexivity|].
  change (do_calls (c :: cs) lrw) with (do_calls cs (do_call c lrw)).
  rewrite IH. by destruct c.
Qed.

(** X9: the logging writer is transparent: after any sequence of calls
    the wrapped writer is in the state the same calls made directly on it
    give, and the header map read through the wrapper is the wrapped
    writer's. *)
Theorem loggingResponseWriter_transparent :
  forall (W : Type) (RW : ResponseWriter W) (cs : list call) (w : W),
    ResponseWriter_ (do_calls cs (NewLoggingResponseWriter w)) = do_calls cs w
    /\ GetHeader (do_calls cs (NewLoggingResponseWriter w))
         = GetHeader (do_calls cs w).
Proof.
  intros W RW cs w.
  pose proof (lrw_do_calls_inner cs (NewLoggingResponseWriter w)) as Hinner.
  split; [exact Hinner|].
  cbn [GetHeader loggingResponseWriter_ResponseWriter]. by rewrite Hinner.
Qed.







Lemma Redirect_through_lrw {W} `{ResponseWriter W}
    (lrw : loggingResponseWriter W) (r : Request) (url : string) (code : Z) :
  Redirect lrw r url code =
    mkLoggingResponseWriter (Redirect (ResponseWriter_ lrw) r url code) code.
Proof.
  unfold Redirect. cbn [GetHeader loggingResponseWriter_ResponseWriter].
  destruct (negb _ && (_ || _)), (negb _ && String.eqb _ _); reflexivity.
Qed.

(** X11: a redirect issued through the logging writer records 301 and
    reaches the wrapped writer as the same Redirect call, over any wrapped
    writer and whatever status was recorded before. *)
Theorem loggingResponseWriter_records_redirect (r : Request)
    (Hproto : Header_Get (ReqHeader r) "X-Forwarded-Proto" = "http") :
  forall (W : Type) (RW : ResponseWriter W) (Σ : Type)
         (h : Handler (loggingResponseWriter W) Σ)
         (lrw : loggingResponseWriter W) (σ : Σ),
    statusCode (redirectHTTP h lrw r σ).1 = 301
    /\ ResponseWriter_ (redirectHTTP h lrw r σ).1
         = Redirect (ResponseWriter_ lrw) r
             ("https://" +:+ Host r +:+ RequestURI r) 301.
Proof.
  intros W RW Σ h lrw σ. rewrite (redirectHTTP_http h lrw r σ Hproto). cbn [fst].
  rewrite Redirect_through_lrw. by split.
Qed.

Lemma loggingResponseWriter_records_redirect_witness :
  statusCode (redirectHTTP spy (NewLoggingResponseWriter newResponse)
                plain_http_request []).1 = 301
  /\ status (ResponseWriter_
               (redirectHTTP spy (NewLoggingResponseWriter newResponse)
                  plain_http_request []).1) = 301.
Proof.
  destruct (loggingResponseWriter_records_redirect plain_http_request eq_refl
              response _ (list Request) spy
              (NewLoggingResponseWriter newResponse) []) as [Hrec Hinner].
  split; [exact Hrec|]. rewrite Hinner. reflexivity.
Defined.

(** * Further properties of the bootstrap *)

Section BootstrapOutcomes.

Context {Σ E ServeMuxOption runtimeServeMux : Type}.
Variable runtime_NewServeMux : list ServeMuxOption -> runtimeServeMux.
Variable runtime_ServeHTTP : runtimeServeMux -> Handler response Σ.
Variable RegisterThingsHandlerFromEndpoint :
  runtimeServeMux -> string -> list DialOption -> runtimeServeMux * option E.
Variable ServeMux_ServeHTTP :
  list (string * Handler response Σ) -> Handler response Σ.
Variable ListenAndServe_result : string -> completion (option E).

Local Abbreviation Run' :=
  (Run runtime_NewServeMux runtime_ServeHTTP RegisterThingsHandlerFromEndpoint
     ServeMux_ServeHTTP ListenAndServe_result).
Local Abbreviation main' :=
  (main runtime_NewServeMux runtime_ServeHTTP RegisterThingsHandlerFromEndpoint
     ServeMux_ServeHTTP ListenAndServe_result).
Local Abbreviation rootMux' := (rootMux runtime_ServeHTTP ServeMux_ServeHTTP).
Local Abbreviation registration opts :=
  (RegisterThingsHandlerFromEndpoint (runtime_NewServeMux opts) ":10808"
     [WithInsecure]).

(** Run's result and trace, by the outcome of the registration and of the
    listener. *)
Lemma Run_cases (address : string) (opts : list ServeMuxOption) :
  Run' address opts =
    match (registration opts).2 with
    | Some e =>
        (Returns (Some e),
         [EvLog ("starting gateway server on :8080" +:+ newline);
          EvRegister ":10808" [WithInsecure]; EvCancel])
    | None =>
        (ListenAndServe_result address,
         [EvLog ("starting gateway server on :8080" +:+ newline);
          EvRegister ":10808" [WithInsecure];
          EvListenAndServe address (handleCORS (rootMux' (registration opts).1))]
         ++ match ListenAndServe_result address with
            | BlocksForever => []
            | _ => [EvCancel]
            end)%list
    end.
Proof.
  destruct (registration opts).2 as [e|] eqn:He.
  - by apply Run_registration_fails.
  - by apply Run_registration_succeeds.
Qed.

(** X12: whatever address Run is given, its log line names the package's
    bindAddress ":8080" and the registration dials ":10808" insecurely;
    the address given is the one the listener gets, with handleCORS of the
    root multiplexer as its handler. *)
Theorem Run_logs_bindAddress_listens_on_address :
  forall (address : string) (opts : list ServeMuxOption),
    firstn 2 (Run' address opts).2 =
      [EvLog ("starting gateway server on :8080" +:+ newline);
       EvRegister ":10808" [WithInsecure]]
    /\ (forall (a : string) (h : Handler response Σ),
          In (EvListenAndServe a h) (Run' address opts).2 ->
          a = address /\ h = handleCORS (rootMux' (registration opts).1)).
Proof.
  intros address opts. rewrite Run_cases.
  destruct (registration opts).2 as [e|]; cbn [snd].
  - split; [reflexivity|]. intros a h Hin. cbn in Hin.
    destruct Hin as [Hin|[Hin|[Hin|[]]]]; discriminate Hin.
  - split; [reflexivity|]. intros a h Hin.
    apply in_app_or in Hin as [Hin|Hin].
    + cbn in Hin. destruct Hin as [Hin|[Hin|[Hin|[]]]]; try discriminate Hin.
      by injection Hin as <- <-.
    + destruct (ListenAndServe_result address); cbn in Hin;
        try destruct Hin as [Hin|[]]; try discriminate Hin; by destruct Hin.
Qed.

(** X13: Run returns the registration error if there is one and otherwise
    ends as ListenAndServe does.  It registers exactly once on every path,
    listens at most once and only after a successful registration, and the
    deferred cancel is the last event exactly when Run does not block
    forever. *)
Theorem Run_outcome :
  forall (address : string) (opts : list ServeMuxOption),
    (Run' address opts).1 =
      match (registration opts).2 with
      | Some e => Returns (Some e)
      | None => ListenAndServe_result address
      end
    /\ attempts isRegister (Run' address opts).2 = 1%nat
    /\ attempts isListenAndServe (Run' address opts).2 =
         (match (registration opts).2 with Some _ => 0%nat | None => 1%nat end)
    /\ attempts isCancel (Run' address opts).2 =
         (match (Run' address opts).1 with BlocksForever => 0%nat | _ => 1%nat end)
    /\ ((Run' address opts).1 <> BlocksForever ->
        last (Run' address opts).2 = Some EvCancel).
Proof.
  intros address opts. rewrite Run_cases.
  destruct (registration opts).2 as [e|]; cbn [fst snd].
  - repeat split.
  - destruct (ListenAndServe_result address); repeat split; congruence.
Qed.

(** X14: main serves on ":8080" with no multiplexer options.  It exits
    with 1, after logging the error fatally as its last event, when the
    registration fails or ListenAndServe returns an error; it never ends
    while the listener serves. *)
Theorem main_outcome :
  main'.1 =
    match (Run' bindAddress []).1 with
    | Returns (Some _) => Returns 1
    | Returns None => Returns 0
    | BlocksForever => BlocksForever
    | Panics => Panics
    end
  /\ (forall e : E,
        (Run' bindAddress []).1 = Returns (Some e) ->
        main'.2 = (EvSetFlags 0 :: (Run' bindAddress []).2 ++ [EvFatal e])%list)
  /\ ((forall e : E, (Run' bindAddress []).1 <> Returns (Some e)) ->
      main'.2 = EvSetFlags 0 :: (Run' bindAddress []).2)
  /\ (forall e : E,
        (registration []).2 = Some e \/
        ((registration []).2 = None
         /\ ListenAndServe_result bindAddress = Returns (Some e)) ->
        main'.1 = Returns 1 /\ last main'.2 = Some (EvFatal e)).
Proof.
  assert (Hmain : forall out t,
            Run' bindAddress [] = (out, t) ->
            main' =
              match out with
              | Returns (Some e) => (Returns 1, EvSetFlags 0 :: t ++ [EvFatal e])
              | Returns None => (Returns 0, EvSetFlags 0 :: t)
              | BlocksForever => (BlocksForever, EvSetFlags 0 :: t)
              | Panics => (Panics, EvSetFlags 0 :: t)
              end%list).
  { intros out t Hrun. unfold main, bind.
    rewrite Hrun. destruct out as [[e|]| |]; cbn [emit ret];
      by rewrite ?app_nil_r. }
  destruct (Run' bindAddress []) as [out t] eqn:Hrun.
  rewrite (Hmain out t eq_refl). cbn [fst snd].
  split; [by destruct out as [[e|]| |]|]. split; [|split].
  - intros e ->. reflexivity.
  - intros Hno. destruct out as [[e|]| |]; try reflexivity. by destruct (Hno e).
  - intros e Hfail.
    assert (Hout : out = Returns (Some e)).
    { rewrite Run_cases in Hrun.
      destruct Hfail as [He|[He Hl]]; rewrite He in Hrun;
        [|rewrite Hl in Hrun]; congruence. }
    subst out. split; [reflexivity|].
    change (EvSetFlags 0 :: t ++ [EvFatal e])%list
      with ((EvSetFlags 0 :: t) ++ [EvFatal e])%list.
    apply last_snoc.
Qed.

End BootstrapOutcomes.

(** A listener whose port is taken: Run returns the bind error after the
    one registration and the one listen attempt, and main exits with 1. *)
Example Run_address_in_use :
  Run sample_NewServeMux sample_ServeHTTP sample_Register_ok sample_ServeMux
    sample_Listen_in_use ":9090" []
  = (Returns (Some "listen tcp :9090: address already in use"),
     [EvLog ("starting gateway server on :8080" +:+ newline);
      EvRegister ":10808" [WithInsecure];
      EvListenAndServe ":9090"
        (handleCORS (rootMux sample_ServeHTTP sample_ServeMux tt));
      EvCancel])
  /\ (main sample_NewServeMux sample_ServeHTTP sample_Register_ok
        sample_ServeMux sample_Listen_in_use).1 = Returns 1.
Proof. split; reflexivity. Qed.

(** A preflight answered on a writer that already held headers: the CORS
    keys are replaced, the foreign key stays. *)
Example preflight_on_prepared_response :
  let h := handlerHeader (handleCORS spy prepared_response preflight_request []).1 in
  h !! "Access-Control-Allow-Origin" = Some ["https://app.example.org"]
  /\ h !! "Access-Control-Max-Age" = Some ["3600"]
  /\ h !! "X-Request-ID" = Some ["42"]
  /\ size h = 5%nat.
Proof. repeat split. Qed.
